(** * cmd/machine-api-migration: the bootstrap of the migration manager

    A shallow embedding of [cmd/machine-api-migration/main.go]: the two
    functions of the file that carry behaviour, [main] and
    [getFeatureGates], together with [initScheme], written as programs of
    a small monad that records every call the process makes on its
    collaborators (flag packages, controller-runtime, library-go, klog,
    the operating system) and stops at [os.Exit], at a panic, or at a
    wait that is never answered.

    What the collaborators answer is not decided by this file: it is
    read from a [World], one field per call site. *)

From stdpp Require Import base option strings gmap list.
From Stdlib Require Import ZArith Lia.

Local Open Scope string_scope.
Local Open Scope list_scope.
Local Open Scope Z_scope.

(* ===================================================================== *)
(** ** Go values used by the file                                         *)
(* ===================================================================== *)

(** [time.Duration] is an int64 count of nanoseconds. Every duration
    the file builds is a small constant, far from the int64 range. *)
Module time.
Definition Duration : Type := Z.
Definition Nanosecond : Duration := 1.
Definition Microsecond : Duration := 1000 * Nanosecond.
Definition Millisecond : Duration := 1000 * Microsecond.
Definition Second : Duration := 1000 * Millisecond.
Definition Minute : Duration := 60 * Second.
End time.

(** Errors. [errTimedOutWaitingForFeatureGates] is the package variable
    built once with [errors.New("timed out waiting for feature gates to
    be initialized")]; [Errorf] is [fmt.Errorf] with a [%w] verb, which
    wraps its cause in a fresh error value; [External] is an error value
    handed back by a collaborator. *)
Inductive error : Type :=
| errTimedOutWaitingForFeatureGates
| Errorf (format : string) (cause : error)
| External (msg : string).

(** A fallible constructor of a collaborator: a value, or an error.
    [main] and [getFeatureGates] look at the error of [ctrl.NewManager]
    and [configv1client.NewForConfig] before they touch the value, so
    for these two only which of the two came back matters. *)
Inductive result (A : Type) : Type :=
| Ok (a : A)
| Err (e : error).
Arguments Ok {A} a.
Arguments Err {A} e.

(** [context.Context] values the file handles: [context.Background()] and
    the context returned by [ctrl.SetupSignalHandler()], cancelled by the
    first SIGINT or SIGTERM. *)
Inductive Context : Type :=
| ctxBackground
| ctxSignal.

Inductive Signal : Type :=
| SIGINT
| SIGTERM.

(* ===================================================================== *)
(** ** Data of the collaborating packages                                 *)
(* ===================================================================== *)

(** [runtime.Scheme]: the API groups added to it, most recent first. *)
Definition Scheme : Type := list string.

(** [config.LeaderElectionConfiguration] of k8s.io/component-base. *)
Record LeaderElectionConfiguration : Type := {
  LeaderElect : bool;
  LeaseDuration : time.Duration;
  RenewDeadline : time.Duration;
  RetryPeriod : time.Duration;
  ResourceLock : string;
  ResourceName : string;
  ResourceNamespace : string
}.

(** [capiflags.DiagnosticsOptions] of sigs.k8s.io/cluster-api. *)
Record DiagnosticsOptions : Type := {
  MetricsBindAddr : string;
  DiagnosticsAddress : string;
  InsecureDiagnostics : bool
}.

(** [metricsserver.Options], as far as a bind address goes. *)
Record MetricsOptions : Type := {
  BindAddress : string;
  SecureServing : bool
}.

(** [cache.Config] is used with no field set. *)
Inductive CacheConfig : Type :=
| emptyCacheConfig.

(** [cache.Options]: [DefaultNamespaces] is a Go map keyed by namespace
    name, [SyncPeriod] a pointer to a duration. *)
Record CacheOptions : Type := {
  DefaultNamespaces : gmap string CacheConfig;
  SyncPeriod : option time.Duration
}.

(** [rest.Config]: the file only passes it on. *)
Definition RestConfig : Type := string.

(** The fields of [ctrl.Options] that [main] sets. *)
Record Options : Type := {
  opt_Scheme : Scheme;
  opt_Metrics : MetricsOptions;
  opt_HealthProbeBindAddress : string;
  opt_LeaderElectionNamespace : string;
  opt_LeaderElection : bool;
  opt_LeaseDuration : option time.Duration;
  opt_LeaderElectionID : string;
  opt_RetryPeriod : option time.Duration;
  opt_RenewDeadline : option time.Duration;
  opt_Cache : CacheOptions
}.

(** A manager remembers what it was built from. *)
Record Manager : Type := {
  mgr_Config : RestConfig;
  mgr_Options : Options
}.

Definition GetConfig (mgr : Manager) : RestConfig := mgr_Config mgr.

Inductive Checker : Type :=
| healthz_Ping.

(** The config clientset and the shared informer factory built on it. *)
Record ConfigClient : Type := {
  client_Config : RestConfig
}.

Record SharedInformerFactory : Type := {
  factory_Client : ConfigClient;
  factory_DefaultResync : time.Duration
}.

Inductive ConfigResource : Type :=
| ClusterVersionsResource
| FeatureGatesResource.

(** [configInformers.Config().V1().ClusterVersions()] and
    [...FeatureGates()]: an informer of one resource of one factory. *)
Record Informer : Type := {
  informer_Factory : SharedInformerFactory;
  informer_Resource : ConfigResource
}.

Definition ClusterVersions (f : SharedInformerFactory) : Informer :=
  {| informer_Factory := f; informer_Resource := ClusterVersionsResource |}.

Definition FeatureGates (f : SharedInformerFactory) : Informer :=
  {| informer_Factory := f; informer_Resource := FeatureGatesResource |}.

(** What [featuregates.NewFeatureGateAccess] was called with. *)
Record FeatureGateAccess : Type := {
  acc_DesiredVersion : string;
  acc_MissingVersion : string;
  acc_ClusterVersions : Informer;
  acc_FeatureGates : Informer;
  acc_EventRecorder : string
}.

(** A feature-gate snapshot: feature name to enabled. *)
Definition FeatureGate : Type := gmap string bool.

Definition features_FeatureGateMachineAPIMigration : string :=
  "MachineAPIMigration".

(** Background tasks the file starts with [go]. *)
Inductive Task : Type :=
| Task_AccessorRun (acc : FeatureGateAccess) (ctx : Context)
| Task_InformersStart (f : SharedInformerFactory) (ctx : Context).

(** The two cases of the [select] in [getFeatureGates]. *)
Inductive SelectCase : Type :=
| caseObserved
| caseTimeAfter.

(** The command line as [pflag.Parse] leaves it: for every flag that was
    given, its value, by flag name and type. *)
Record CommandLine : Type := {
  stringFlags : gmap string string;
  boolFlags : gmap string bool;
  durationFlags : gmap string time.Duration
}.

Definition noFlags : CommandLine :=
  {| stringFlags := ∅; boolFlags := ∅; durationFlags := ∅ |}.

Inductive ParseResult : Type :=
| Parsed (args : CommandLine)
| ParseExit (code : Z).

(** A flag variable: the pointer [flag.String] and [flag.Bool] return. *)
Record FlagVar (A : Type) : Type := {
  flag_name : string;
  flag_default : A
}.
Arguments flag_name {A} _.
Arguments flag_default {A} _.

Definition deref_string (args : CommandLine) (p : FlagVar string) : string :=
  default (flag_default p) (stringFlags args !! flag_name p).

Definition deref_bool (args : CommandLine) (p : FlagVar bool) : bool :=
  default (flag_default p) (boolFlags args !! flag_name p).

(** [options.BindLeaderElectionFlags] binds each field of the
    configuration to a flag whose default is the value the field holds;
    after [pflag.Parse] a field holds the flag's value if the flag was
    given and is unchanged otherwise. *)
Definition boundLeaderElectionFlags
    (args : CommandLine) (l : LeaderElectionConfiguration)
    : LeaderElectionConfiguration :=
  {| LeaderElect :=
       default (LeaderElect l) (boolFlags args !! "leader-elect");
     LeaseDuration :=
       default (LeaseDuration l)
               (durationFlags args !! "leader-elect-lease-duration");
     RenewDeadline :=
       default (RenewDeadline l)
               (durationFlags args !! "leader-elect-renew-deadline");
     RetryPeriod :=
       default (RetryPeriod l)
               (durationFlags args !! "leader-elect-retry-period");
     ResourceLock :=
       default (ResourceLock l)
               (stringFlags args !! "leader-elect-resource-lock");
     ResourceName :=
       default (ResourceName l)
               (stringFlags args !! "leader-elect-resource-name");
     ResourceNamespace :=
       default (ResourceNamespace l)
               (stringFlags args !! "leader-elect-resource-namespace") |}.

(* ===================================================================== *)
(** ** Calls recorded in a run                                            *)
(* ===================================================================== *)

Inductive Event : Type :=
| E_NewScheme
| E_AddToScheme (group : string)
| E_FlagString (name dflt usage : string)
| E_FlagBool (name : string) (dflt : bool) (usage : string)
| E_TextLoggerAddFlags
| E_SetLogger
| E_AddGoFlagSet
| E_BindLeaderElectionFlags (l : LeaderElectionConfiguration)
| E_AddDiagnosticsOptions (o : DiagnosticsOptions)
| E_Parse
| E_LogToStderr (b : bool)
| E_GetDiagnosticsOptions (o : DiagnosticsOptions)
| E_GetConfigOrDie
| E_NewManager (cfg : RestConfig) (o : Options)
| E_SetupSignalHandler
| E_NewForConfig (cfg : RestConfig)
| E_NewSharedInformerFactory (c : ConfigClient) (resync : time.Duration)
| E_NewLoggingEventRecorder (component : string)
| E_NewFeatureGateAccess (acc : FeatureGateAccess)
| E_Go (t : Task)
| E_Select (acc : FeatureGateAccess) (timeout : time.Duration)
| E_Received (c : SelectCase)
| E_CurrentFeatureGates (acc : FeatureGateAccess)
| E_KnownFeatures
| E_Enabled (feature : string) (enabled : bool)
| E_Info (msg : string)
| E_Infof (format : string) (known : list string)
| E_Error (err : error) (msg : string)
| E_AwaitDone (ctx : Context)
| E_Done (ctx : Context) (s : Signal)
| E_GatesChanged
| E_StartReturned (err : option error)
| E_AddHealthzCheck (name : string) (c : Checker)
| E_AddReadyzCheck (name : string) (c : Checker)
| E_Start (ctx : Context)
| E_Panic (why : string)
| E_Exit (code : Z).

(* ===================================================================== *)
(** ** The monad of a run                                                 *)
(* ===================================================================== *)

(** How a program fragment ends: it hands a value to what follows, the
    process exits, a goroutine panics, or the fragment waits for
    something that never comes. *)
Inductive Outcome (A : Type) : Type :=
| Returned (a : A)
| Exited (code : Z)
| Panicked
| Blocked.
Arguments Returned {A} a.
Arguments Exited {A} code.
Arguments Panicked {A}.
Arguments Blocked {A}.

Definition M (A : Type) : Type := list Event * Outcome A.

Definition ret {A} (a : A) : M A := ([], Returned a).

Definition bind {A B} (m : M A) (k : A → M B) : M B :=
  let '(t, o) := m in
  match o with
  | Returned a => let '(t', o') := k a in (t ++ t', o')
  | Exited c => (t, Exited c)
  | Panicked => (t, Panicked)
  | Blocked => (t, Blocked)
  end.

Notation "x <~ m ;; k" := (bind m (fun x => k))
  (at level 100, m at next level, right associativity,
   format "'[v' x  <~  m  ;;  '/' k ']'").
Notation "m ;;; k" := (bind m (fun _ => k))
  (at level 100, right associativity,
   format "'[v' m  ;;;  '/' k ']'").

Definition call {A} (e : Event) (a : A) : M A := ([e], Returned a).
Definition emit (e : Event) : M unit := call e tt.

(** [os.Exit] does not return. *)
Definition os_Exit {A} (code : Z) : M A := ([E_Exit code], Exited code).

(** A run-time panic of the main goroutine. *)
Definition panic {A} (why : string) : M A := ([E_Panic why], Panicked).

(** [if err != nil { ... }] *)
Definition if_err (err : option error) (handler : error → M unit) : M unit :=
  match err with
  | Some e => handler e
  | None => ret tt
  end.

Definition events {A} (m : M A) : list Event := m.1.
Definition outcome {A} (m : M A) : Outcome A := m.2.

(** The exit status of the process when [main] ends this way: returning
    from [main] is exit status 0, an unrecovered panic is exit status 2,
    and a blocked process has none. *)
Definition exit_status (o : Outcome unit) : option Z :=
  match o with
  | Returned _ => Some 0
  | Exited c => Some c
  | Panicked => Some 2
  | Blocked => None
  end.

(* ===================================================================== *)
(** ** Packages of the repository that the file imports                   *)
(* ===================================================================== *)

(** The file reads three durations and the release version from
    [pkg/util] and the default namespace from [pkg/controllers]; both
    packages live outside the file, so their values are parameters of
    the embedding. *)
Record Packages : Type := {
  util_LeaseDuration : time.Duration;
  util_RenewDeadline : time.Duration;
  util_RetryPeriod : time.Duration;
  util_GetReleaseVersion : string;
  controllers_DefaultManagedNamespace : string
}.

(* ===================================================================== *)
(** ** The world a run happens in                                         *)
(* ===================================================================== *)

(** One field per call whose answer the file branches on or passes on.
    A fallible call answers [None] for a nil error. The two reads of
    [CurrentFeatureGates] are Go pairs, a snapshot that may be nil and an
    error that may be nil: [getFeatureGates] drops the error and uses the
    snapshot, so both components count. *)
Record World : Type := {
  (** [mapiv1beta1.AddToScheme] *)
  w_AddToScheme : option error;
  (** [pflag.Parse] over the arguments of the process *)
  w_Parse : ParseResult;
  (** the [DiagnosticsOptions] variable once
      [capiflags.AddDiagnosticsOptions] has bound it and [pflag.Parse]
      has run, from the value [main] initialised it with; the package
      registers its flags with defaults of its own choosing *)
  w_boundDiagnosticsOptions : DiagnosticsOptions → DiagnosticsOptions;
  (** [capiflags.GetDiagnosticsOptions] *)
  w_GetDiagnosticsOptions : DiagnosticsOptions → MetricsOptions;
  (** [ctrl.GetConfigOrDie]: [None] when it dies *)
  w_GetConfig : option RestConfig;
  (** [ctrl.NewManager] *)
  w_NewManager : RestConfig → Options → option error;
  (** [configv1client.NewForConfig] *)
  w_NewForConfig : RestConfig → option error;
  (** time from the start of the [select] to the closing of
      [InitialFeatureGatesObserved()], if it is ever closed *)
  w_observedAfter : option time.Duration;
  (** the case the Go runtime picks when both are ready at once *)
  w_selectTie : SelectCase;
  (** [CurrentFeatureGates] as called in [getFeatureGates] *)
  w_probeRead : option FeatureGate * option error;
  (** [CurrentFeatureGates] as called in [main] *)
  w_mainRead : option FeatureGate * option error;
  (** [mgr.AddHealthzCheck], [mgr.AddReadyzCheck] *)
  w_AddHealthzCheck : string → Checker → option error;
  w_AddReadyzCheck : string → Checker → option error;
  (** [mgr.Start]: the error the event loop fails with by itself, if
      it does *)
  w_Start : option error;
  (** the first termination signal the process receives, if any *)
  w_signal : option Signal;
  (** whether the accessor started by [getFeatureGates] sees the feature
      gates change while the main goroutine waits on the signal context,
      before that wait is over *)
  w_gateChange : bool;
  (** what [mgr.Start] does once its context is cancelled: it returns
      nil or an error, or ([None]) it does not return *)
  w_StartAfterCancel : option (option error)
}.

(** The [select] of [getFeatureGates] takes the case that becomes ready
    first: the accessor's channel after [observedAfter], the timer after
    [d]; when both become ready together the runtime picks. *)
Definition select_first
    (observedAfter : option time.Duration) (tie : SelectCase)
    (d : time.Duration) : SelectCase :=
  match observedAfter with
  | None => caseTimeAfter
  | Some t =>
      if t <? d then caseObserved
      else if d <? t then caseTimeAfter
      else tie
  end.

Section Program.

Context (pkgs : Packages) (w : World).

(* ------------------------------------------------------------------- *)
(** *** Calls on the collaborators                                      *)
(* ------------------------------------------------------------------- *)

Definition runtime_NewScheme : M Scheme := call E_NewScheme [].

Definition mapiv1beta1_AddToScheme (scheme : Scheme)
    : M (Scheme * option error) :=
  call (E_AddToScheme "machine.openshift.io/v1beta1")
       (match w_AddToScheme w with
        | None => ("machine.openshift.io/v1beta1" :: scheme, None)
        | Some e => (scheme, Some e)
        end).

(** [utilruntime.Must] panics on a non-nil error. *)
Definition utilruntime_Must (err : option error) : M unit :=
  match err with
  | Some _ => panic "utilruntime.Must"
  | None => ret tt
  end.

Definition flag_String (name dflt usage : string) : M (FlagVar string) :=
  call (E_FlagString name dflt usage)
       {| flag_name := name; flag_default := dflt |}.

Definition flag_Bool (name : string) (dflt : bool) (usage : string)
    : M (FlagVar bool) :=
  call (E_FlagBool name dflt usage)
       {| flag_name := name; flag_default := dflt |}.

(** [pflag.CommandLine] exits the process itself when parsing fails or
    help is asked for. *)
Definition pflag_Parse : M CommandLine :=
  emit E_Parse ;;;
  match w_Parse w with
  | Parsed args => ret args
  | ParseExit code => os_Exit code
  end.

Definition klog_Info (msg : string) : M unit := emit (E_Info msg).
Definition klog_Infof (format : string) (known : list string) : M unit :=
  emit (E_Infof format known).
Definition klog_Error (err : error) (msg : string) : M unit :=
  emit (E_Error err msg).

Definition ctrl_GetConfigOrDie : M RestConfig :=
  emit E_GetConfigOrDie ;;;
  match w_GetConfig w with
  | Some cfg => ret cfg
  | None => os_Exit 1
  end.

Definition ctrl_NewManager (cfg : RestConfig) (o : Options)
    : M (result Manager) :=
  call (E_NewManager cfg o)
       (match w_NewManager w cfg o with
        | None => Ok {| mgr_Config := cfg; mgr_Options := o |}
        | Some e => Err e
        end).

Definition ctrl_SetupSignalHandler : M Context :=
  call E_SetupSignalHandler ctxSignal.

(** The accessor is built with its default change handler ("By
    default, this will exit(0) if the featuregates change"): when its
    goroutine, started by [getFeatureGates], sees the gates change, it
    calls [os.Exit(0)] and the process ends under whatever the main
    goroutine is waiting for. *)
Definition accessor_ForceExit {A} : M A :=
  ([E_GatesChanged; E_Exit 0], Exited 0).

(** [<-ctx.Done()]: returns once the context is cancelled. The signal
    context is cancelled by the first termination signal; the
    background context never is. While the main goroutine waits here
    the accessor goroutine runs on, and a change of the gates ends the
    process. *)
Definition await_Done (ctx : Context) : M unit :=
  emit (E_AwaitDone ctx) ;;;
  if w_gateChange w then accessor_ForceExit
  else
    match ctx, w_signal w with
    | ctxSignal, Some s => emit (E_Done ctx s)
    | _, _ => ([], Blocked)
    end.

Definition mgr_AddHealthzCheck (mgr : Manager) (name : string) (c : Checker)
    : M (option error) :=
  call (E_AddHealthzCheck name c) (w_AddHealthzCheck w name c).

Definition mgr_AddReadyzCheck (mgr : Manager) (name : string) (c : Checker)
    : M (option error) :=
  call (E_AddReadyzCheck name c) (w_AddReadyzCheck w name c).

(** [mgr.Start(ctx)] runs the event loop. The loop may fail by itself,
    and [Start] returns its error. Otherwise it runs until something
    ends it: a change of the gates, seen by the accessor goroutine, ends
    the process under it; a termination signal cancels the context,
    after which [Start] returns nil or an error, or does not return at
    all; with neither, it keeps running. *)
Definition mgr_Start (mgr : Manager) (ctx : Context) : M (option error) :=
  emit (E_Start ctx) ;;;
  match w_Start w with
  | Some e => call (E_StartReturned (Some e)) (Some e)
  | None =>
      if w_gateChange w then accessor_ForceExit
      else
        match ctx, w_signal w with
        | ctxSignal, Some s =>
            emit (E_Done ctx s) ;;;
            match w_StartAfterCancel w with
            | Some r => call (E_StartReturned r) r
            | None => ([], Blocked)
            end
        | _, _ => ([], Blocked)
        end
  end.

Definition configv1client_NewForConfig (cfg : RestConfig)
    : M (result ConfigClient) :=
  call (E_NewForConfig cfg)
       (match w_NewForConfig w cfg with
        | None => Ok {| client_Config := cfg |}
        | Some e => Err e
        end).

Definition configinformers_NewSharedInformerFactory
    (c : ConfigClient) (resync : time.Duration) : M SharedInformerFactory :=
  call (E_NewSharedInformerFactory c resync)
       {| factory_Client := c; factory_DefaultResync := resync |}.

Definition events_NewLoggingEventRecorder (component : string) : M string :=
  call (E_NewLoggingEventRecorder component) component.

Definition featuregates_NewFeatureGateAccess
    (desiredVersion missingVersion : string)
    (clusterVersions featureGates : Informer) (recorder : string)
    : M FeatureGateAccess :=
  let acc := {| acc_DesiredVersion := desiredVersion;
                acc_MissingVersion := missingVersion;
                acc_ClusterVersions := clusterVersions;
                acc_FeatureGates := featureGates;
                acc_EventRecorder := recorder |} in
  call (E_NewFeatureGateAccess acc) acc.

Definition go (t : Task) : M unit := emit (E_Go t).

(** The [select] over [InitialFeatureGatesObserved()] and
    [time.After(d)]. *)
Definition select_observed_or_after
    (acc : FeatureGateAccess) (d : time.Duration) : M SelectCase :=
  emit (E_Select acc d) ;;;
  let c := select_first (w_observedAfter w) (w_selectTie w) d in
  call (E_Received c) c.

Definition CurrentFeatureGates
    (acc : FeatureGateAccess) (answer : option FeatureGate * option error)
    : M (option FeatureGate * option error) :=
  call (E_CurrentFeatureGates acc) answer.

(** The names the snapshot knows (the library hands them back sorted;
    no property here depends on their order). A method call on a nil
    interface value panics. *)
Definition KnownFeatures (fg : option FeatureGate) : M (list string) :=
  match fg with
  | None => panic "nil pointer dereference"
  | Some g => call E_KnownFeatures (elements (dom g))
  end.

(** [Enabled] answers for a feature the snapshot knows and panics for
    one it does not. *)
Definition Enabled (fg : option FeatureGate) (feature : string) : M bool :=
  match fg with
  | None => panic "nil pointer dereference"
  | Some g =>
      match g !! feature with
      | Some b => call (E_Enabled feature b) b
      | None => panic "feature is not registered in FeatureGates"
      end
  end.

(* ------------------------------------------------------------------- *)
(** *** [initScheme]                                                    *)
(* ------------------------------------------------------------------- *)

Definition initScheme (scheme : Scheme) : M Scheme :=
  r <~ mapiv1beta1_AddToScheme scheme ;;
  utilruntime_Must r.2 ;;;
  ret r.1.

(* ------------------------------------------------------------------- *)
(** *** [getFeatureGates]                                               *)
(* ------------------------------------------------------------------- *)

Definition getFeatureGates (mgr : Manager)
    : M (option FeatureGateAccess * option error) :=
  let desiredVersion := util_GetReleaseVersion pkgs in
  let missingVersion := "0.0.1-snapshot" in
  r <~ configv1client_NewForConfig (GetConfig mgr) ;;
  match r with
  | Err err =>
      ret (None, Some (Errorf "failed to create config client: %w" err))
  | Ok configClient =>
      configInformers <~
        configinformers_NewSharedInformerFactory
          configClient (10 * time.Minute) ;;
      recorder <~ events_NewLoggingEventRecorder "machineapimigration" ;;
      featureGateAccessor <~
        featuregates_NewFeatureGateAccess
          desiredVersion missingVersion
          (ClusterVersions configInformers)
          (FeatureGates configInformers)
          recorder ;;
      go (Task_AccessorRun featureGateAccessor ctxBackground) ;;;
      go (Task_InformersStart configInformers ctxBackground) ;;;
      c <~ select_observed_or_after featureGateAccessor (1 * time.Minute) ;;
      match c with
      | caseObserved =>
          read <~ CurrentFeatureGates featureGateAccessor (w_probeRead w) ;;
          let featureGates := read.1 in
          known <~ KnownFeatures featureGates ;;
          klog_Infof "FeatureGates initialized: %v" known ;;;
          ret (Some featureGateAccessor, None)
      | caseTimeAfter =>
          ret (None, Some errTimedOutWaitingForFeatureGates)
      end
  end.

(* ------------------------------------------------------------------- *)
(** *** [main]                                                          *)
(* ------------------------------------------------------------------- *)

Definition main : M unit :=
  scheme <~ runtime_NewScheme ;;
  scheme <~ initScheme scheme ;;
  let leaderElectionConfig :=
    {| LeaderElect := true;
       LeaseDuration := util_LeaseDuration pkgs;
       RenewDeadline := util_RenewDeadline pkgs;
       RetryPeriod := util_RetryPeriod pkgs;
       ResourceLock := "";
       ResourceName := "machine-api-migration-leader";
       ResourceNamespace := "openshift-cluster-api" |} in
  let diagnosticsOptions :=
    {| MetricsBindAddr := ":8081";
       DiagnosticsAddress := "";
       InsecureDiagnostics := false |} in
  healthAddr <~
    flag_String "health-addr" ":9441"
                "The address for health checking." ;;
  managedNamespace <~
    flag_String "namespace" (controllers_DefaultManagedNamespace pkgs)
                "The namespace where CAPI components will run." ;;
  logToStderr <~
    flag_Bool "logtostderr" true
              "log to standard error instead of files" ;;
  emit E_TextLoggerAddFlags ;;;
  emit E_SetLogger ;;;
  (* Once all the flags are registered, switch to pflag
     to allow leader election flags to be bound. *)
  emit E_AddGoFlagSet ;;;
  emit (E_BindLeaderElectionFlags leaderElectionConfig) ;;;
  emit (E_AddDiagnosticsOptions diagnosticsOptions) ;;;
  args <~ pflag_Parse ;;
  let leaderElectionConfig :=
    boundLeaderElectionFlags args leaderElectionConfig in
  let diagnosticsOptions :=
    w_boundDiagnosticsOptions w diagnosticsOptions in
  emit (E_LogToStderr (deref_bool args logToStderr)) ;;;
  diagnosticsOpts <~
    call (E_GetDiagnosticsOptions diagnosticsOptions)
         (w_GetDiagnosticsOptions w diagnosticsOptions) ;;
  let syncPeriod := 10 * time.Minute in
  let cacheOpts :=
    {| DefaultNamespaces :=
         {[ deref_string args managedNamespace := emptyCacheConfig ]};
       SyncPeriod := Some syncPeriod |} in
  cfg <~ ctrl_GetConfigOrDie ;;
  r <~ ctrl_NewManager cfg
         {| opt_Scheme := scheme;
            opt_Metrics := diagnosticsOpts;
            opt_HealthProbeBindAddress := deref_string args healthAddr;
            opt_LeaderElectionNamespace :=
              ResourceNamespace leaderElectionConfig;
            opt_LeaderElection := LeaderElect leaderElectionConfig;
            opt_LeaseDuration := Some (LeaseDuration leaderElectionConfig);
            opt_LeaderElectionID := ResourceName leaderElectionConfig;
            opt_RetryPeriod := Some (RetryPeriod leaderElectionConfig);
            opt_RenewDeadline := Some (RenewDeadline leaderElectionConfig);
            opt_Cache := cacheOpts |} ;;
  match r with
  | Err err =>
      klog_Error err "unable to create manager" ;;;
      os_Exit 1
  | Ok mgr =>
      (* This will catch signals from the OS and shutdown the manager
         gracefully. *)
      stop <~ ctrl_SetupSignalHandler ;;
      r <~ getFeatureGates mgr ;;
      if_err r.2 (fun err =>
        klog_Error err "unable to get feature gates" ;;;
        os_Exit 1) ;;;
      match r.1 with
      | None => panic "nil pointer dereference"
      | Some featureGateAccessor =>
          read <~ CurrentFeatureGates featureGateAccessor (w_mainRead w) ;;
          let currentFeatureGates := read.1 in
          if_err read.2 (fun err =>
            klog_Error err "unable to get current feature gates" ;;;
            os_Exit 1) ;;;
          enabled <~
            Enabled currentFeatureGates
                    features_FeatureGateMachineAPIMigration ;;
          (if negb enabled then
             klog_Info
               "MachineAPIMigration feature gate is not enabled, nothing to do. Waiting for termination signal." ;;;
             await_Done stop ;;;
             os_Exit 0
           else ret tt) ;;;
          err <~ mgr_AddHealthzCheck mgr "health" healthz_Ping ;;
          if_err err (fun err =>
            klog_Error err "unable to set up health check" ;;;
            os_Exit 1) ;;;
          err <~ mgr_AddReadyzCheck mgr "check" healthz_Ping ;;
          if_err err (fun err =>
            klog_Error err "unable to set up ready check" ;;;
            os_Exit 1) ;;;
          klog_Info "starting manager" ;;;
          err <~ mgr_Start mgr stop ;;
          if_err err (fun err =>
            klog_Error err "problem running manager" ;;;
            os_Exit 1)
      end
  end.

End Program.

(* ===================================================================== *)
(** ** Reading a run                                                      *)
(* ===================================================================== *)

(** Classes of events the properties speak about. *)
Definition is_Start (e : Event) : bool :=
  match e with E_Start _ => true | _ => false end.

Definition is_NewManager (e : Event) : bool :=
  match e with E_NewManager _ _ => true | _ => false end.

Definition is_SetupSignalHandler (e : Event) : bool :=
  match e with E_SetupSignalHandler => true | _ => false end.

Definition is_Enabled (e : Event) : bool :=
  match e with E_Enabled _ _ => true | _ => false end.

Definition is_Error (e : Event) : bool :=
  match e with E_Error _ _ => true | _ => false end.

Definition is_healthz_health (e : Event) : bool :=
  match e with
  | E_AddHealthzCheck name healthz_Ping => String.eqb name "health"
  | _ => false
  end.

Definition is_readyz_check (e : Event) : bool :=
  match e with
  | E_AddReadyzCheck name healthz_Ping => String.eqb name "check"
  | _ => false
  end.

(** What the manager is asked to do once it exists: register a probe or
    run its event loop, and with the loop the controllers added to it. *)
Definition uses_manager (e : Event) : bool :=
  match e with
  | E_AddHealthzCheck _ _ | E_AddReadyzCheck _ _ | E_Start _ => true
  | _ => false
  end.

(** A wait of the main goroutine: the [select] of the probe, the receive
    on [stop.Done()], the event loop. *)
Definition is_blocking_wait (e : Event) : bool :=
  match e with
  | E_Select _ _ | E_AwaitDone _ | E_Start _ => true
  | _ => false
  end.

(** The calls [getFeatureGates] makes. *)
Definition is_probe_call (e : Event) : bool :=
  match e with
  | E_NewForConfig _ | E_NewSharedInformerFactory _ _
  | E_NewLoggingEventRecorder _ | E_NewFeatureGateAccess _ | E_Go _
  | E_Select _ _ | E_Received _ | E_CurrentFeatureGates _
  | E_KnownFeatures | E_Infof _ _ => true
  | _ => false
  end.

(** The context an event waits on, if it waits on one. *)
Definition waits_on (e : Event) : option Context :=
  match e with
  | E_AwaitDone ctx | E_Start ctx => Some ctx
  | _ => None
  end.

Definition waits_on_signal (e : Event) : bool :=
  match waits_on e with
  | Some ctxBackground => false
  | _ => true
  end.

(** Every [b] event of the trace has an [a] event before it. *)
Definition precedes (a b : Event → bool) (t : list Event) : Prop :=
  ∀ t1 e t2, t = t1 ++ e :: t2 → b e = true →
             ∃ e', In e' t1 ∧ a e' = true.

(** No event of the trace is a [b] event. *)
Definition never (b : Event → bool) (t : list Event) : Prop :=
  ∀ e, In e t → b e = false.

(** The trace from its first [p] event on. *)
Fixpoint from_first (p : Event → bool) (t : list Event) : list Event :=
  match t with
  | [] => []
  | e :: t' => if p e then e :: t' else from_first p t'
  end.

(** The options of the first [ctrl.NewManager] call of the trace. *)
Fixpoint newManagerOptions (t : list Event) : option Options :=
  match t with
  | [] => None
  | E_NewManager _ o :: _ => Some o
  | _ :: t' => newManagerOptions t'
  end.

(** The checker behind [precedes]: walk the trace, remember whether an
    [a] event has been seen, refuse a [b] event that comes too early. *)
Fixpoint guardedb (a b : Event → bool) (seen : bool) (t : list Event)
    : bool :=
  match t with
  | [] => true
  | e :: t' => (negb (b e) || seen) && guardedb a b (seen || a e) t'
  end.

Definition neverb (b : Event → bool) (t : list Event) : bool :=
  forallb (fun e => negb (b e)) t.

(** The order the spec puts on the three durations of leader election. *)
Definition durations_ordered (retry renew lease : time.Duration) : Prop :=
  retry < renew ∧ renew < lease.

(** The [select] outcome in terms of time. The timer case is taken when
    [d] elapses with the accessor's channel still open; when the channel
    closes at the very instant the timer fires, both cases are ready and
    the runtime's pick decides. *)
Definition elapses_unobserved (w : World) (d : time.Duration) : Prop :=
  match w_observedAfter w with
  | None => True
  | Some t => d < t ∨ (t = d ∧ w_selectTie w = caseTimeAfter)
  end.

Definition observed_first (w : World) (d : time.Duration) : Prop :=
  match w_observedAfter w with
  | None => False
  | Some t => t < d ∨ (t = d ∧ w_selectTie w = caseObserved)
  end.

(** The notice of the idle branch. *)
Definition idle_notice : string :=
  "MachineAPIMigration feature gate is not enabled, nothing to do. Waiting for termination signal.".

(** The diagnostics options as [main] initialises them. *)
Definition initial_diagnosticsOptions : DiagnosticsOptions :=
  {| MetricsBindAddr := ":8081";
     DiagnosticsAddress := "";
     InsecureDiagnostics := false |}.

(* ===================================================================== *)
(** ** Worlds to run the program in                                       *)
(* ===================================================================== *)

Definition test_pkgs : Packages :=
  {| util_LeaseDuration := 137 * time.Second;
     util_RenewDeadline := 107 * time.Second;
     util_RetryPeriod := 26 * time.Second;
     util_GetReleaseVersion := "4.17.0";
     controllers_DefaultManagedNamespace := "openshift-cluster-api" |}.

(** A cluster that answers every call, reports the gate as [gate] after
    two seconds and sends [signal]. *)
Definition test_world (args : CommandLine) (gate : bool)
    (signal : option Signal) : World :=
  {| w_AddToScheme := None;
     w_Parse := Parsed args;
     w_boundDiagnosticsOptions := fun o => o;
     w_GetDiagnosticsOptions := fun o =>
       {| BindAddress := DiagnosticsAddress o; SecureServing := true |};
     w_GetConfig := Some "in-cluster";
     w_NewManager := fun _ _ => None;
     w_NewForConfig := fun _ => None;
     w_observedAfter := Some (2 * time.Second);
     w_selectTie := caseObserved;
     w_probeRead := (Some {[ "MachineAPIMigration" := gate ]}, None);
     w_mainRead := (Some {[ "MachineAPIMigration" := gate ]}, None);
     w_AddHealthzCheck := fun _ _ => None;
     w_AddReadyzCheck := fun _ _ => None;
     w_Start := None;
     w_signal := signal;
     w_gateChange := false;
     w_StartAfterCancel := Some None |}.

Definition test_mgr : Manager :=
  {| mgr_Config := "in-cluster";
     mgr_Options :=
       {| opt_Scheme := [];
          opt_Metrics := {| BindAddress := ""; SecureServing := true |};
          opt_HealthProbeBindAddress := ":9441";
          opt_LeaderElectionNamespace := "openshift-cluster-api";
          opt_LeaderElection := true;
          opt_LeaseDuration := None;
          opt_LeaderElectionID := "machine-api-migration-leader";
          opt_RetryPeriod := None;
          opt_RenewDeadline := None;
          opt_Cache := {| DefaultNamespaces := ∅; SyncPeriod := None |} |} |}.

(** [--leader-elect=false --leader-elect-resource-name=other-lease
     --leader-elect-resource-namespace=default] *)
Definition args_leader_election_overridden : CommandLine :=
  {| stringFlags :=
       {[ "leader-elect-resource-name" := "other-lease";
          "leader-elect-resource-namespace" := "default" ]};
     boolFlags := {[ "leader-elect" := false ]};
     durationFlags := ∅ |}.

(** [--leader-elect-lease-duration=1s --leader-elect-renew-deadline=2s] *)
Definition args_lease_below_renew : CommandLine :=
  {| stringFlags := ∅;
     boolFlags := ∅;
     durationFlags :=
       {[ "leader-elect-lease-duration" := 1 * time.Second;
          "leader-elect-renew-deadline" := 2 * time.Second ]} |}.

(** [--namespace=openshift-machine-api] *)
Definition args_namespace : CommandLine :=
  {| stringFlags := {[ "namespace" := "openshift-machine-api" ]};
     boolFlags := ∅;
     durationFlags := ∅ |}.


(** The config plane never answers. *)
Definition world_unresponsive : World :=
  {| w_AddToScheme := None;
     w_Parse := Parsed noFlags;
     w_boundDiagnosticsOptions := fun o => o;
     w_GetDiagnosticsOptions := fun o =>
       {| BindAddress := DiagnosticsAddress o; SecureServing := true |};
     w_GetConfig := Some "in-cluster";
     w_NewManager := fun _ _ => None;
     w_NewForConfig := fun _ => None;
     w_observedAfter := None;
     w_selectTie := caseObserved;
     w_probeRead := (None, Some (External "featureGates not yet observed"));
     w_mainRead := (None, Some (External "featureGates not yet observed"));
     w_AddHealthzCheck := fun _ _ => None;
     w_AddReadyzCheck := fun _ _ => None;
     w_Start := None;
     w_signal := None;
     w_gateChange := false;
     w_StartAfterCancel := Some None |}.

(* ===================================================================== *)
(** ** What the cache watches, and worlds that differ in one answer       *)
(* ===================================================================== *)

(** [cache.AllNamespaces], which is [metav1.NamespaceAll]: the empty
    string. *)
Definition cache_AllNamespaces : string := "".

(** The namespaces a cache with these options watches, as
    controller-runtime reads [DefaultNamespaces]: with no entry, every
    namespace; otherwise the namespaces that are keys of the map, and
    every namespace when [cache.AllNamespaces] is one of the keys. *)
Definition cache_watches (c : CacheOptions) (ns : string) : bool :=
  bool_decide (dom (DefaultNamespaces c) = ∅)
  || bool_decide (ns ∈ dom (DefaultNamespaces c))
  || bool_decide (cache_AllNamespaces ∈ dom (DefaultNamespaces c)).


(** The gate is disabled, no termination signal is ever sent, and the
    gates change while the process idles. *)
Definition world_gates_change_while_idle : World :=
  {| w_AddToScheme := None;
     w_Parse := Parsed noFlags;
     w_boundDiagnosticsOptions := fun o => o;
     w_GetDiagnosticsOptions := fun o =>
       {| BindAddress := DiagnosticsAddress o; SecureServing := true |};
     w_GetConfig := Some "in-cluster";
     w_NewManager := fun _ _ => None;
     w_NewForConfig := fun _ => None;
     w_observedAfter := Some (2 * time.Second);
     w_selectTie := caseObserved;
     w_probeRead := (Some {[ "MachineAPIMigration" := false ]}, None);
     w_mainRead := (Some {[ "MachineAPIMigration" := false ]}, None);
     w_AddHealthzCheck := fun _ _ => None;
     w_AddReadyzCheck := fun _ _ => None;
     w_Start := None;
     w_signal := None;
     w_gateChange := true;
     w_StartAfterCancel := Some None |}.

(** [--namespace=] *)
Definition args_namespace_empty : CommandLine :=
  {| stringFlags := {[ "namespace" := "" ]};
     boolFlags := ∅;
     durationFlags := ∅ |}.

Definition is_StartReturned (e : Event) : bool :=
  match e with E_StartReturned _ => true | _ => false end.

Definition is_GatesChanged (e : Event) : bool :=
  match e with E_GatesChanged => true | _ => false end.

Definition is_Go_AccessorRun (e : Event) : bool :=
  match e with E_Go (Task_AccessorRun _ _) => true | _ => false end.

Definition is_Go_InformersStart (e : Event) : bool :=
  match e with E_Go (Task_InformersStart _ _) => true | _ => false end.

(* ===================================================================== *)
(** ** More classes of events                                             *)
(* ===================================================================== *)

Definition is_Exit (e : Event) : bool :=
  match e with E_Exit _ => true | _ => false end.

Definition is_Parse (e : Event) : bool :=
  match e with E_Parse => true | _ => false end.

Definition is_Go (e : Event) : bool :=
  match e with E_Go _ => true | _ => false end.

Definition is_Select (e : Event) : bool :=
  match e with E_Select _ _ => true | _ => false end.

Definition is_Received (e : Event) : bool :=
  match e with E_Received _ => true | _ => false end.

(** The observation case of the [select] was taken. *)
Definition is_observed (e : Event) : bool :=
  match e with E_Received caseObserved => true | _ => false end.

(** [Enabled] answered true. *)
Definition is_Enabled_true (e : Event) : bool :=
  match e with E_Enabled _ true => true | _ => false end.

Definition is_CurrentFeatureGates (e : Event) : bool :=
  match e with E_CurrentFeatureGates _ => true | _ => false end.

Definition is_BindLeaderElectionFlags (e : Event) : bool :=
  match e with E_BindLeaderElectionFlags _ => true | _ => false end.

Definition is_AddDiagnosticsOptions (e : Event) : bool :=
  match e with E_AddDiagnosticsOptions _ => true | _ => false end.

Definition is_LogToStderr (e : Event) : bool :=
  match e with E_LogToStderr _ => true | _ => false end.

(** A flag is defined or a variable is bound to flags. *)
Definition is_flag_binding (e : Event) : bool :=
  match e with
  | E_FlagString _ _ _ | E_FlagBool _ _ _ | E_TextLoggerAddFlags
  | E_AddGoFlagSet | E_BindLeaderElectionFlags _
  | E_AddDiagnosticsOptions _ => true
  | _ => false
  end.

(** Anything [main] does once the scheme is set up. *)
Definition is_after_scheme (e : Event) : bool :=
  match e with
  | E_NewScheme | E_AddToScheme _ | E_Panic _ => false
  | _ => true
  end.

(** The context a background task is started with. *)
Definition task_context (t : Task) : Context :=
  match t with
  | Task_AccessorRun _ ctx | Task_InformersStart _ ctx => ctx
  end.

(** [mapiv1beta1.AddToScheme] fails. *)
Definition world_scheme_fails : World :=
  {| w_AddToScheme := Some (External "type already registered");
     w_Parse := Parsed noFlags;
     w_boundDiagnosticsOptions := fun o => o;
     w_GetDiagnosticsOptions := fun o =>
       {| BindAddress := DiagnosticsAddress o; SecureServing := true |};
     w_GetConfig := Some "in-cluster";
     w_NewManager := fun _ _ => None;
     w_NewForConfig := fun _ => None;
     w_observedAfter := Some (2 * time.Second);
     w_selectTie := caseObserved;
     w_probeRead := (Some {[ "MachineAPIMigration" := true ]}, None);
     w_mainRead := (Some {[ "MachineAPIMigration" := true ]}, None);
     w_AddHealthzCheck := fun _ _ => None;
     w_AddReadyzCheck := fun _ _ => None;
     w_Start := None;
     w_signal := None;
     w_gateChange := false;
     w_StartAfterCancel := Some None |}.

(** [ctrl.NewManager] fails. *)
Definition world_manager_fails : World :=
  {| w_AddToScheme := None;
     w_Parse := Parsed noFlags;
     w_boundDiagnosticsOptions := fun o => o;
     w_GetDiagnosticsOptions := fun o =>
       {| BindAddress := DiagnosticsAddress o; SecureServing := true |};
     w_GetConfig := Some "in-cluster";
     w_NewManager := fun _ _ => Some (External "no such host");
     w_NewForConfig := fun _ => None;
     w_observedAfter := Some (2 * time.Second);
     w_selectTie := caseObserved;
     w_probeRead := (Some {[ "MachineAPIMigration" := true ]}, None);
     w_mainRead := (Some {[ "MachineAPIMigration" := true ]}, None);
     w_AddHealthzCheck := fun _ _ => None;
     w_AddReadyzCheck := fun _ _ => None;
     w_Start := None;
     w_signal := None;
     w_gateChange := false;
     w_StartAfterCancel := Some None |}.

(** [configv1client.NewForConfig] fails. *)
Definition world_client_fails : World :=
  {| w_AddToScheme := None;
     w_Parse := Parsed noFlags;
     w_boundDiagnosticsOptions := fun o => o;
     w_GetDiagnosticsOptions := fun o =>
       {| BindAddress := DiagnosticsAddress o; SecureServing := true |};
     w_GetConfig := Some "in-cluster";
     w_NewManager := fun _ _ => None;
     w_NewForConfig := fun _ => Some (External "invalid host");
     w_observedAfter := Some (2 * time.Second);
     w_selectTie := caseObserved;
     w_probeRead := (Some {[ "MachineAPIMigration" := true ]}, None);
     w_mainRead := (Some {[ "MachineAPIMigration" := true ]}, None);
     w_AddHealthzCheck := fun _ _ => None;
     w_AddReadyzCheck := fun _ _ => None;
     w_Start := None;
     w_signal := None;
     w_gateChange := false;
     w_StartAfterCancel := Some None |}.

(** The event loop of the manager fails. *)
Definition world_start_fails : World :=
  {| w_AddToScheme := None;
     w_Parse := Parsed noFlags;
     w_boundDiagnosticsOptions := fun o => o;
     w_GetDiagnosticsOptions := fun o =>
       {| BindAddress := DiagnosticsAddress o; SecureServing := true |};
     w_GetConfig := Some "in-cluster";
     w_NewManager := fun _ _ => None;
     w_NewForConfig := fun _ => None;
     w_observedAfter := Some (2 * time.Second);
     w_selectTie := caseObserved;
     w_probeRead := (Some {[ "MachineAPIMigration" := true ]}, None);
     w_mainRead := (Some {[ "MachineAPIMigration" := true ]}, None);
     w_AddHealthzCheck := fun _ _ => None;
     w_AddReadyzCheck := fun _ _ => None;
     w_Start := Some (External "leader election lost");
     w_signal := None;
     w_gateChange := false;
     w_StartAfterCancel := Some None |}.

(** [--health-addr=:9999 --logtostderr=false] *)
Definition args_health_addr : CommandLine :=
  {| stringFlags := {[ "health-addr" := ":9999" ]};
     boolFlags := {[ "logtostderr" := false ]};
     durationFlags := ∅ |}.

(* ===================================================================== *)
(** ** Running the program symbolically                                   *)
(* ===================================================================== *)

Ltac unfold_program H :=
  unfold main, getFeatureGates, initScheme, runtime_NewScheme,
    mapiv1beta1_AddToScheme, utilruntime_Must, flag_String, flag_Bool,
    pflag_Parse, klog_Info, klog_Infof, klog_Error, ctrl_GetConfigOrDie,
    ctrl_NewManager, ctrl_SetupSignalHandler, await_Done,
    mgr_AddHealthzCheck, mgr_AddReadyzCheck, mgr_Start,
    configv1client_NewForConfig, configinformers_NewSharedInformerFactory,
    events_NewLoggingEventRecorder, featuregates_NewFeatureGateAccess, go,
    select_observed_or_after, CurrentFeatureGates, KnownFeatures, Enabled,
    accessor_ForceExit, if_err, emit, call, os_Exit, panic, ret in H.

(** The subterm a stuck program waits on. *)
Ltac head_stuck t :=
  lazymatch t with
  | bind ?m _ => head_stuck m
  | negb ?b => head_stuck b
  | fst ?p => head_stuck p
  | snd ?p => head_stuck p
  | match ?x with _ => _ end => head_stuck x
  | _ => t
  end.

(** Decide, one after the other and in program order, the answers of the
    world the run in [H : program = (t, o)] depends on. *)
Ltac run_step H :=
  cbn [bind fst snd app negb] in H;
  lazymatch type of H with
  | ?lhs = _ =>
      let s := head_stuck lhs in
      lazymatch s with
      | (_, _) => fail
      | _ => destruct s eqn:?
      end
  end.

Ltac run H :=
  unfold_program H; repeat run_step H;
  cbn [bind fst snd app negb] in H;
  injection H as <- <-.

Ltac run_main pkgs w :=
  let t := fresh "t" in
  let o := fresh "o" in
  let H := fresh "Hrun" in
  unfold events, outcome;
  destruct (main pkgs w) as [t o] eqn:H; cbn [fst snd];
  run H.

Ltac run_probe pkgs w mgr :=
  let t := fresh "t" in
  let o := fresh "o" in
  let H := fresh "Hrun" in
  unfold events, outcome;
  destruct (getFeatureGates pkgs w mgr) as [t o] eqn:H; cbn [fst snd];
  run H.

(** A hypothesis that a concrete trace holds an event it does not. *)
Ltac absurd_In :=
  match goal with
  | H : In _ _ |- _ =>
      exfalso; clear - H; cbn [In] in H;
      repeat (destruct H as [H | H]; [discriminate H |]);
      exact H
  end.

(** Split [H : In e t] over a concrete trace [t] into the positions
    whose event can be [e]. *)
Ltac split_In H :=
  cbn [In] in H;
  repeat (destruct H as [H | H]; [try discriminate H | ]);
  try contradiction.

(** Find an event in a trace that computes. *)
Ltac find_In :=
  vm_compute; repeat (first [left; reflexivity | right]).

(** Use what the run has learnt about the world. *)
Ltac rewrite_world :=
  repeat match goal with
    | H : w_signal _ = _ |- _ => rewrite H
    | H : w_AddHealthzCheck _ _ _ = _ |- _ => rewrite H
    | H : w_AddReadyzCheck _ _ _ = _ |- _ => rewrite H
    | H : w_gateChange _ = _ |- _ => rewrite H
    | H : w_Start _ = _ |- _ => rewrite H
    | H : w_StartAfterCancel _ = _ |- _ => rewrite H
    end;
  cbn [fst snd] in *.

(* ===================================================================== *)
(** ** Lemmas on traces                                                   *)
(* ===================================================================== *)

Lemma guardedb_sound a b seen t :
  guardedb a b seen t = true →
  ∀ t1 e t2, t = t1 ++ e :: t2 → b e = true →
             seen = true ∨ ∃ e', In e' t1 ∧ a e' = true.
Proof.
  revert seen. induction t as [|x t IH]; intros seen Hg t1 e t2 Heq Hb.
  - destruct t1; discriminate Heq.
  - cbn [guardedb] in Hg. apply andb_prop in Hg as [Hhead Htail].
    destruct t1 as [|y t1]; cbn [app] in Heq; injection Heq as -> ->.
    + rewrite Hb in Hhead. cbn in Hhead. now left.
    + destruct (IH _ Htail t1 e t2 eq_refl Hb) as [Hseen | (e' & Hin & Ha)].
      * apply orb_prop in Hseen as [-> | Ha]; [now left | right].
        exists y. split; [now left | exact Ha].
      * right. exists e'. split; [now right | exact Ha].
Qed.

Lemma guardedb_precedes a b t : guardedb a b false t = true → precedes a b t.
Proof.
  intros Hg t1 e t2 Heq Hb.
  destruct (guardedb_sound _ _ _ _ Hg _ _ _ Heq Hb) as [? | ?];
    [discriminate | assumption].
Qed.

Lemma neverb_never b t : neverb b t = true → never b t.
Proof.
  unfold neverb, never. intros H e Hin.
  rewrite forallb_forall in H. specialize (H e Hin).
  now apply negb_true_iff in H.
Qed.

Lemma newManagerOptions_In t o :
  newManagerOptions t = Some o → ∃ cfg, In (E_NewManager cfg o) t.
Proof.
  induction t as [|e t IH]; [discriminate|].
  destruct e; cbn [newManagerOptions]; intros H;
    try (destruct (IH H) as [cfg' Hin]; exists cfg'; now right).
  injection H as <-. eexists. left. reflexivity.
Qed.

Lemma waits_on_signal_all t :
  forallb waits_on_signal t = true →
  ∀ e ctx, In e t → waits_on e = Some ctx → ctx = ctxSignal.
Proof.
  intros H e ctx Hin Hw. rewrite forallb_forall in H.
  specialize (H e Hin). unfold waits_on_signal in H. rewrite Hw in H.
  destruct ctx; [discriminate | reflexivity].
Qed.

Lemma select_first_timer w d :
  select_first (w_observedAfter w) (w_selectTie w) d = caseTimeAfter
  ↔ elapses_unobserved w d.
Proof.
  unfold select_first, elapses_unobserved.
  destruct (w_observedAfter w) as [t|]; [|tauto].
  destruct (Z.ltb_spec t d), (Z.ltb_spec d t); try lia.
  - split; [discriminate | intros [? | [? _]]; lia].
  - split; [intros _; left; lia | reflexivity].
  - replace t with d by lia. split; [intros ->; now right|].
    intros [? | [_ ?]]; [lia | assumption].
Qed.

Lemma select_first_observed w d :
  select_first (w_observedAfter w) (w_selectTie w) d = caseObserved
  ↔ observed_first w d.
Proof.
  unfold select_first, observed_first.
  destruct (w_observedAfter w) as [t|]; [|split; [discriminate | tauto]].
  destruct (Z.ltb_spec t d), (Z.ltb_spec d t); try lia.
  - split; [intros _; left; lia | reflexivity].
  - split; [discriminate | intros [? | [? _]]; lia].
  - replace t with d by lia. split; [intros ->; now right|].
    intros [? | [_ ?]]; [lia | assumption].
Qed.

Lemma cache_watches_single (c : CacheOptions) (managed ns : string) :
  dom (DefaultNamespaces c) = {[ managed ]} →
  managed ≠ cache_AllNamespaces →
  cache_watches c ns = true ↔ ns = managed.
Proof.
  intros Hdom Hne. unfold cache_watches. rewrite Hdom.
  rewrite !orb_true_iff, !bool_decide_eq_true.
  split.
  - intros [[Hempty | Hin] | Hall]; set_solver.
  - intros ->. left. right. set_solver.
Qed.

Lemma cache_watches_all (c : CacheOptions) (ns : string) :
  cache_AllNamespaces ∈ dom (DefaultNamespaces c) →
  cache_watches c ns = true.
Proof.
  intros Hin. unfold cache_watches.
  rewrite !orb_true_iff, !bool_decide_eq_true. right. exact Hin.
Qed.

(** The timeout of the probe, [1 * time.Minute], is sixty seconds. *)
Lemma one_minute : 1 * time.Minute = 60 * time.Second.
Proof. reflexivity. Qed.

(** The resync period, [10 * time.Minute], is six hundred seconds. *)
Lemma ten_minutes : 10 * time.Minute = 600 * time.Second.
Proof. reflexivity. Qed.

(* ===================================================================== *)
(** ** Test runs                                                          *)
(* ===================================================================== *)

(** S1: gate disabled, SIGTERM: exit status 0. *)
Example run_gate_disabled_SIGTERM :
  outcome (main test_pkgs (test_world noFlags false (Some SIGTERM)))
  = Exited 0.
Proof. vm_compute. reflexivity. Qed.

Example run_gate_disabled_no_signal :
  outcome (main test_pkgs (test_world noFlags false None)) = Blocked.
Proof. vm_compute. reflexivity. Qed.

(** S2: gate enabled, the manager runs until SIGINT, [main] returns. *)
Example run_gate_enabled_tail :
  from_first is_Enabled
    (events (main test_pkgs (test_world noFlags true (Some SIGINT))))
  = [E_Enabled "MachineAPIMigration" true;
     E_AddHealthzCheck "health" healthz_Ping;
     E_AddReadyzCheck "check" healthz_Ping;
     E_Info "starting manager";
     E_Start ctxSignal;
     E_Done ctxSignal SIGINT;
     E_StartReturned None]
  ∧ exit_status
      (outcome (main test_pkgs (test_world noFlags true (Some SIGINT))))
    = Some 0.
Proof. vm_compute. split; reflexivity. Qed.

(** S3: the config plane does not answer: one error, exit status 1. *)
Example run_timeout :
  from_first is_Error (events (main test_pkgs world_unresponsive))
  = [E_Error errTimedOutWaitingForFeatureGates "unable to get feature gates";
     E_Exit 1]
  ∧ outcome (main test_pkgs world_unresponsive) = Exited 1.
Proof. vm_compute. split; reflexivity. Qed.

(* ===================================================================== *)
(** ** The idle branch                                                    *)
(* ===================================================================== *)

(** C1 as stated fails: with the gate disabled and no termination signal
    ever sent, the idle process does not stay blocked when the gates
    change: the change handler of the accessor ends it with status 0. *)
Lemma idle_wait_ended_by_gate_change :
  In (E_Enabled features_FeatureGateMachineAPIMigration false)
     (events (main test_pkgs world_gates_change_while_idle))
  ∧ w_signal world_gates_change_while_idle = None
  ∧ from_first is_Enabled
      (events (main test_pkgs world_gates_change_while_idle))
    = [E_Enabled features_FeatureGateMachineAPIMigration false;
       E_Info idle_notice;
       E_AwaitDone ctxSignal;
       E_GatesChanged;
       E_Exit 0]
  ∧ outcome (main test_pkgs world_gates_change_while_idle) = Exited 0.
Proof.
  split; [find_In|]. split; [reflexivity|].
  split; vm_compute; reflexivity.
Qed.

(** C1, amended: in every startup in which [Enabled] reports the
    MachineAPIMigration gate as disabled, the manager is never asked to
    register a probe or to run its event loop (the file adds no
    controller to it anywhere); from the gate check on, the process logs
    the informational notice and waits on the signal context. The wait
    ends in one of two ways, both with status 0: a termination signal
    cancels the context and [main] calls [os.Exit(0)], or the accessor
    started by [getFeatureGates] sees the gates change and its change
    handler exits the process. With neither, the process stays
    blocked. *)
Theorem gate_disabled_idles_until_signal pkgs w :
  In (E_Enabled features_FeatureGateMachineAPIMigration false)
     (events (main pkgs w)) →
  never uses_manager (events (main pkgs w))
  ∧ from_first is_Enabled (events (main pkgs w))
    = [E_Enabled features_FeatureGateMachineAPIMigration false;
       E_Info idle_notice;
       E_AwaitDone ctxSignal]
      ++ (if w_gateChange w then [E_GatesChanged; E_Exit 0]
          else match w_signal w with
               | Some s => [E_Done ctxSignal s; E_Exit 0]
               | None => []
               end)
  ∧ outcome (main pkgs w)
    = (if w_gateChange w then Exited 0
       else match w_signal w with
            | Some _ => Exited 0
            | None => Blocked
            end).
Proof.
  run_main pkgs w.
  all: intros Hin; try absurd_In.
  all: rewrite_world.
  all: split; [apply neverb_never; reflexivity | split; reflexivity].
Qed.

Lemma gate_disabled_idles_until_signal_witness :
  In (E_Enabled features_FeatureGateMachineAPIMigration false)
     (events (main test_pkgs (test_world noFlags false (Some SIGTERM))))
  ∧ outcome (main test_pkgs (test_world noFlags false (Some SIGTERM)))
    = Exited 0.
Proof.
  assert (Hin : In (E_Enabled features_FeatureGateMachineAPIMigration false)
                   (events (main test_pkgs
                                 (test_world noFlags false (Some SIGTERM)))))
    by find_In.
  split; [exact Hin|].
  exact (proj2 (proj2 (gate_disabled_idles_until_signal _ _ Hin))).
Defined.

(* ===================================================================== *)
(** ** The feature-gate probe                                             *)
(* ===================================================================== *)

(** C2: the [select] of [getFeatureGates] waits with a timeout of sixty
    seconds; [getFeatureGates] returns
    [errTimedOutWaitingForFeatureGates] exactly when the config client
    was built and sixty seconds elapse without the accessor signalling
    its first observation; and when the observation comes first (and the
    read that follows yields the snapshot, as the accessor promises once
    it has signalled), it returns the accessor it built and a nil
    error. *)
Theorem getFeatureGates_times_out_iff_unobserved pkgs w mgr :
  (∀ acc d, In (E_Select acc d) (events (getFeatureGates pkgs w mgr)) →
            d = 60 * time.Second)
  ∧ (outcome (getFeatureGates pkgs w mgr)
       = Returned (None, Some errTimedOutWaitingForFeatureGates)
     ↔ w_NewForConfig w (GetConfig mgr) = None
       ∧ elapses_unobserved w (60 * time.Second))
  ∧ (w_NewForConfig w (GetConfig mgr) = None →
     observed_first w (60 * time.Second) →
     (w_probeRead w).1 ≠ None →
     ∃ acc, In (E_NewFeatureGateAccess acc)
               (events (getFeatureGates pkgs w mgr))
            ∧ outcome (getFeatureGates pkgs w mgr)
              = Returned (Some acc, None)).
Proof.
  rewrite <- select_first_timer, <- select_first_observed.
  rewrite <- one_minute.
  run_probe pkgs w mgr.
  all: repeat split.
  all: try (intros acc d Hin; split_In Hin; injection Hin as _ <-;
            reflexivity).
  all: try discriminate.
  all: try congruence.
  all: try tauto.
  all: try (intros [? ?]; congruence).
  all: intros _ _ _; eexists; split; [|reflexivity]; cbn [In]; tauto.
Qed.

Lemma getFeatureGates_times_out_iff_unobserved_witness :
  ∃ acc, outcome (getFeatureGates
                    test_pkgs (test_world noFlags true None) test_mgr)
         = Returned (Some acc, None).
Proof.
  destruct (getFeatureGates_times_out_iff_unobserved
              test_pkgs (test_world noFlags true None) test_mgr)
    as (_ & _ & Hobs).
  destruct Hobs as (acc & _ & Hacc).
  - reflexivity.
  - left. reflexivity.
  - discriminate.
  - exists acc. exact Hacc.
Defined.

(** C7: whenever [getFeatureGates] builds a feature-gate accessor, its
    desired version is the release version of the running process, its
    missing version is "0.0.1-snapshot", and its cluster-version and
    feature-gate informers come from one shared informer factory, built
    with a resync of ten minutes; it builds one as soon as the config
    client exists. *)
Theorem getFeatureGates_accessor_parameters pkgs w mgr :
  (w_NewForConfig w (GetConfig mgr) = None →
   ∃ acc, In (E_NewFeatureGateAccess acc)
             (events (getFeatureGates pkgs w mgr)))
  ∧ ∀ acc, In (E_NewFeatureGateAccess acc)
              (events (getFeatureGates pkgs w mgr)) →
      acc_DesiredVersion acc = util_GetReleaseVersion pkgs
      ∧ acc_MissingVersion acc = "0.0.1-snapshot"
      ∧ ∃ f, In (E_NewSharedInformerFactory
                   (factory_Client f) (factory_DefaultResync f))
                (events (getFeatureGates pkgs w mgr))
             ∧ factory_DefaultResync f = 10 * time.Minute
             ∧ factory_DefaultResync f = 600 * time.Second
             ∧ acc_ClusterVersions acc = ClusterVersions f
             ∧ acc_FeatureGates acc = FeatureGates f.
Proof.
  run_probe pkgs w mgr.
  all: split; [try discriminate; intros _; eexists; cbn [In]; tauto |].
  all: intros acc Hin; try absurd_In.
  all: split_In Hin; injection Hin as <-.
  all: split; [reflexivity|]; split; [reflexivity|].
  all: eexists {| factory_Client := _; factory_DefaultResync := _ |}.
  all: cbn [factory_Client factory_DefaultResync In].
  all: repeat split; tauto.
Qed.

Lemma getFeatureGates_accessor_parameters_witness :
  ∃ acc, In (E_NewFeatureGateAccess acc)
            (events (getFeatureGates
                       test_pkgs (test_world noFlags true None) test_mgr))
         ∧ acc_DesiredVersion acc = "4.17.0"
         ∧ acc_MissingVersion acc = "0.0.1-snapshot".
Proof.
  destruct (getFeatureGates_accessor_parameters
              test_pkgs (test_world noFlags true None) test_mgr)
    as (Hex & Hall).
  destruct (Hex eq_refl) as (acc & Hin).
  exists acc. split; [exact Hin|].
  destruct (Hall acc Hin) as (Hd & Hm & _).
  split; [exact Hd | exact Hm].
Defined.



(* ===================================================================== *)
(** ** The running branch                                                 *)
(* ===================================================================== *)

(** C3: in every startup in which [Enabled] reports the gate as enabled,
    any start of the manager's event loop comes after the registration of
    the liveness probe "health" and after the registration of the
    readiness probe "check"; when both registrations succeed the event
    loop is started, and when either fails the loop is never started and
    the process exits with status 1. *)
Theorem probes_registered_before_start pkgs w :
  In (E_Enabled features_FeatureGateMachineAPIMigration true)
     (events (main pkgs w)) →
  precedes is_healthz_health is_Start (events (main pkgs w))
  ∧ precedes is_readyz_check is_Start (events (main pkgs w))
  ∧ match w_AddHealthzCheck w "health" healthz_Ping,
          w_AddReadyzCheck w "check" healthz_Ping with
    | None, None => In (E_Start ctxSignal) (events (main pkgs w))
    | _, _ => never is_Start (events (main pkgs w))
              ∧ outcome (main pkgs w) = Exited 1
    end.
Proof.
  run_main pkgs w.
  all: intros Hin; try absurd_In.
  all: rewrite_world.
  all: split; [apply guardedb_precedes; reflexivity|].
  all: split; [apply guardedb_precedes; reflexivity|].
  all: try (split; [apply neverb_never; reflexivity | reflexivity]).
  all: cbn [In]; tauto.
Qed.

Lemma probes_registered_before_start_witness :
  In (E_Enabled features_FeatureGateMachineAPIMigration true)
     (events (main test_pkgs (test_world noFlags true (Some SIGTERM))))
  ∧ precedes is_healthz_health is_Start
      (events (main test_pkgs (test_world noFlags true (Some SIGTERM))))
  ∧ In (E_Start ctxSignal)
       (events (main test_pkgs (test_world noFlags true (Some SIGTERM)))).
Proof.
  assert (Hin : In (E_Enabled features_FeatureGateMachineAPIMigration true)
                   (events (main test_pkgs
                                 (test_world noFlags true (Some SIGTERM)))))
    by find_In.
  destruct (probes_registered_before_start _ _ Hin) as (Hh & _ & Hs).
  split; [exact Hin|]. split; [exact Hh | exact Hs].
Defined.

(** C4: in every startup the signal handler is installed before any call
    of the feature-gate probe and before any wait of the main goroutine
    (the probe's select, the idle receive, the event loop); the idle
    receive and the event loop wait on the context the handler returned;
    and the idle receive is interruptible: once the process waits there,
    a signal ends it with status 0; without one it stays blocked, unless
    the gates change and the accessor ends the process, also with
    status 0. *)
Theorem signal_handler_installed_first pkgs w :
  precedes is_SetupSignalHandler is_probe_call (events (main pkgs w))
  ∧ precedes is_SetupSignalHandler is_blocking_wait (events (main pkgs w))
  ∧ (∀ e ctx, In e (events (main pkgs w)) → waits_on e = Some ctx →
              ctx = ctxSignal)
  ∧ (In (E_AwaitDone ctxSignal) (events (main pkgs w)) →
     outcome (main pkgs w)
     = match w_signal w with
       | Some _ => Exited 0
       | None => if w_gateChange w then Exited 0 else Blocked
       end).
Proof.
  run_main pkgs w.
  all: split; [apply guardedb_precedes; reflexivity|].
  all: split; [apply guardedb_precedes; reflexivity|].
  all: split; [apply waits_on_signal_all; reflexivity|].
  all: intros Hin; try absurd_In.
  all: rewrite_world; try reflexivity.
  all: destruct (w_signal w); reflexivity.
Qed.

Lemma signal_handler_installed_first_witness :
  In (E_AwaitDone ctxSignal)
     (events (main test_pkgs (test_world noFlags false (Some SIGINT))))
  ∧ outcome (main test_pkgs (test_world noFlags false (Some SIGINT)))
    = Exited 0.
Proof.
  assert (Hin : In (E_AwaitDone ctxSignal)
                   (events (main test_pkgs
                                 (test_world noFlags false (Some SIGINT)))))
    by find_In.
  split; [exact Hin|].
  destruct (signal_handler_installed_first
              test_pkgs (test_world noFlags false (Some SIGINT)))
    as (_ & _ & _ & Hidle).
  exact (Hidle Hin).
Defined.

(* ===================================================================== *)
(** ** What the manager is built from                                     *)
(* ===================================================================== *)

(** C5 as stated fails: started with [--leader-elect=false
    --leader-elect-resource-name=other-lease
    --leader-elect-resource-namespace=default], the process builds its
    manager with leader election disabled and with that lease name and
    namespace. *)
Lemma leader_election_overridden_by_flags :
  (λ o, (opt_LeaderElection o, opt_LeaderElectionID o,
         opt_LeaderElectionNamespace o))
    <$> newManagerOptions
          (events (main test_pkgs
                        (test_world args_leader_election_overridden
                                    true (Some SIGTERM))))
  = Some (false, "other-lease", "default").
Proof. vm_compute. reflexivity. Qed.

(** C5, amended: the manager is built once, with leader election enabled,
    lease name "machine-api-migration-leader" and lease namespace
    "openshift-cluster-api" unless the command line gives
    [--leader-elect], [--leader-elect-resource-name] or
    [--leader-elect-resource-namespace], each of which replaces its
    value before the manager is built; in particular these are the
    values when none of the three flags is given. No later step builds
    a manager again. *)
Theorem leader_election_lease_identity pkgs w cfg o :
  In (E_NewManager cfg o) (events (main pkgs w)) →
  ∃ args,
    w_Parse w = Parsed args
    ∧ opt_LeaderElection o
      = default true (boolFlags args !! "leader-elect")
    ∧ opt_LeaderElectionID o
      = default "machine-api-migration-leader"
                (stringFlags args !! "leader-elect-resource-name")
    ∧ opt_LeaderElectionNamespace o
      = default "openshift-cluster-api"
                (stringFlags args !! "leader-elect-resource-namespace")
    ∧ (boolFlags args !! "leader-elect" = None →
       stringFlags args !! "leader-elect-resource-name" = None →
       stringFlags args !! "leader-elect-resource-namespace" = None →
       opt_LeaderElection o = true
       ∧ opt_LeaderElectionID o = "machine-api-migration-leader"
       ∧ opt_LeaderElectionNamespace o = "openshift-cluster-api")
    ∧ filter (λ e, is_NewManager e = true) (events (main pkgs w))
      = [E_NewManager cfg o].
Proof.
  run_main pkgs w.
  all: intros Hin; try absurd_In.
  all: split_In Hin; injection Hin as <- <-.
  all: eexists; split; [reflexivity|].
  all: cbn [opt_LeaderElection opt_LeaderElectionID
            opt_LeaderElectionNamespace boundLeaderElectionFlags
            LeaderElect ResourceName ResourceNamespace].
  all: repeat split.
  all: repeat match goal with H : _ !! _ = None |- _ => rewrite H end.
  all: reflexivity.
Qed.

Lemma leader_election_lease_identity_witness :
  ∃ cfg o,
    In (E_NewManager cfg o)
       (events (main test_pkgs (test_world noFlags true (Some SIGTERM))))
    ∧ opt_LeaderElection o = true
    ∧ opt_LeaderElectionID o = "machine-api-migration-leader"
    ∧ opt_LeaderElectionNamespace o = "openshift-cluster-api".
Proof.
  destruct (newManagerOptions
              (events (main test_pkgs
                            (test_world noFlags true (Some SIGTERM)))))
    as [o|] eqn:Ho; [|vm_compute in Ho; discriminate Ho].
  destruct (newManagerOptions_In _ _ Ho) as [cfg Hin].
  exists cfg, o.
  split; [exact Hin|].
  destruct (leader_election_lease_identity _ _ _ _ Hin)
    as (args & Hargs & _ & _ & _ & Hdefault & _).
  injection Hargs as <-.
  apply Hdefault; reflexivity.
Defined.

(** C6 as stated fails: started with [--namespace=], the single key of
    the cache's default namespaces is the empty string, which is
    [cache.AllNamespaces], and the cache watches every namespace. *)
Lemma cache_watches_everything_on_empty_flag :
  (λ o, (elements (dom (DefaultNamespaces (opt_Cache o))),
         cache_watches (opt_Cache o) "kube-system",
         cache_watches (opt_Cache o) "openshift-machine-api"))
    <$> newManagerOptions
          (events (main test_pkgs
                        (test_world args_namespace_empty true
                                    (Some SIGTERM))))
  = Some ([""], true, true).
Proof. vm_compute. reflexivity. Qed.

(** C6, amended: the manager is built with a cache whose default
    namespaces have exactly one key, the managed namespace (the value of
    [--namespace], or the default of the controllers package when the
    flag is not given), and whose resync period is ten minutes. When
    that value is the name of a namespace, the cache watches this
    namespace and no other; when it is the empty string, the key is
    [cache.AllNamespaces] and every namespace is watched. *)
Theorem cache_watches_managed_namespace pkgs w cfg o :
  In (E_NewManager cfg o) (events (main pkgs w)) →
  ∃ args,
    w_Parse w = Parsed args
    ∧ DefaultNamespaces (opt_Cache o)
      = {[ default (controllers_DefaultManagedNamespace pkgs)
                   (stringFlags args !! "namespace") := emptyCacheConfig ]}
    ∧ dom (DefaultNamespaces (opt_Cache o))
      = {[ default (controllers_DefaultManagedNamespace pkgs)
                   (stringFlags args !! "namespace") ]}
    ∧ (∀ ns, ns ≠ default (controllers_DefaultManagedNamespace pkgs)
                          (stringFlags args !! "namespace") →
             DefaultNamespaces (opt_Cache o) !! ns = None)
    ∧ SyncPeriod (opt_Cache o) = Some (10 * time.Minute)
    ∧ SyncPeriod (opt_Cache o) = Some (600 * time.Second)
    ∧ (default (controllers_DefaultManagedNamespace pkgs)
               (stringFlags args !! "namespace") ≠ cache_AllNamespaces →
       ∀ ns, cache_watches (opt_Cache o) ns = true
             ↔ ns = default (controllers_DefaultManagedNamespace pkgs)
                            (stringFlags args !! "namespace"))
    ∧ (default (controllers_DefaultManagedNamespace pkgs)
               (stringFlags args !! "namespace") = cache_AllNamespaces →
       ∀ ns, cache_watches (opt_Cache o) ns = true).
Proof.
  run_main pkgs w.
  all: intros Hin; try absurd_In.
  all: split_In Hin; injection Hin as <- <-.
  all: eexists; split; [reflexivity|].
  all: cbn [opt_Cache DefaultNamespaces SyncPeriod deref_string
            flag_name flag_default].
  all: split; [reflexivity|].
  all: split; [apply dom_singleton_L|].
  all: split; [intros ns Hns; apply lookup_singleton_ne;
               intros Heq; apply Hns; symmetry; exact Heq|].
  all: split; [reflexivity|]; split; [reflexivity|].
  all: split;
    [ intros Hne ns; apply cache_watches_single;
      [apply dom_singleton_L | exact Hne]
    | intros Hall ns; apply cache_watches_all;
      cbn [DefaultNamespaces]; rewrite dom_singleton_L;
      apply elem_of_singleton; symmetry; exact Hall ].
Qed.

Lemma cache_watches_managed_namespace_witness :
  ∃ cfg o,
    In (E_NewManager cfg o)
       (events (main test_pkgs
                     (test_world args_namespace true (Some SIGTERM))))
    ∧ dom (DefaultNamespaces (opt_Cache o))
      = {[ "openshift-machine-api" ]}
    ∧ cache_watches (opt_Cache o) "kube-system" = false.
Proof.
  destruct (newManagerOptions
              (events (main test_pkgs
                            (test_world args_namespace true (Some SIGTERM)))))
    as [o|] eqn:Ho; [|vm_compute in Ho; discriminate Ho].
  destruct (newManagerOptions_In _ _ Ho) as [cfg Hin].
  exists cfg, o.
  split; [exact Hin|].
  destruct (cache_watches_managed_namespace _ _ _ _ Hin)
    as (args & Hargs & _ & Hdom & _ & _ & _ & Honly & _).
  injection Hargs as <-.
  split; [exact Hdom|].
  apply not_true_iff_false. intros Hw.
  apply Honly in Hw; [discriminate Hw | discriminate].
Defined.

(** C8 as stated fails: started with [--leader-elect-lease-duration=1s
    --leader-elect-renew-deadline=2s], the process builds its manager
    with a lease duration of one second and a renew deadline of two. *)
Lemma lease_durations_unordered_by_flags :
  ∃ o, newManagerOptions
         (events (main test_pkgs
                       (test_world args_lease_below_renew
                                   true (Some SIGTERM))))
       = Some o
       ∧ opt_RetryPeriod o = Some (26 * time.Second)
       ∧ opt_RenewDeadline o = Some (2 * time.Second)
       ∧ opt_LeaseDuration o = Some (1 * time.Second)
       ∧ ¬ durations_ordered
             (26 * time.Second) (2 * time.Second) (1 * time.Second).
Proof.
  eexists. split; [vm_compute; reflexivity|].
  repeat split; intros [Hretry Hrenew]; vm_compute in Hretry; discriminate.
Qed.

(** C8, amended: the durations the manager is built with are the
    defaults of [pkg/util], each replaced by its leader-election flag
    when the flag is given, and [main] passes them on without comparing
    them; when no duration flag is given they are ordered retry period <
    renew deadline < lease duration, as the defaults are. *)
Theorem leader_election_durations pkgs w cfg o :
  In (E_NewManager cfg o) (events (main pkgs w)) →
  ∃ args,
    w_Parse w = Parsed args
    ∧ opt_LeaseDuration o
      = Some (default (util_LeaseDuration pkgs)
                (durationFlags args !! "leader-elect-lease-duration"))
    ∧ opt_RenewDeadline o
      = Some (default (util_RenewDeadline pkgs)
                (durationFlags args !! "leader-elect-renew-deadline"))
    ∧ opt_RetryPeriod o
      = Some (default (util_RetryPeriod pkgs)
                (durationFlags args !! "leader-elect-retry-period"))
    ∧ (durations_ordered (util_RetryPeriod pkgs) (util_RenewDeadline pkgs)
                         (util_LeaseDuration pkgs) →
       durationFlags args !! "leader-elect-lease-duration" = None →
       durationFlags args !! "leader-elect-renew-deadline" = None →
       durationFlags args !! "leader-elect-retry-period" = None →
       ∃ retry renew lease,
         opt_RetryPeriod o = Some retry
         ∧ opt_RenewDeadline o = Some renew
         ∧ opt_LeaseDuration o = Some lease
         ∧ durations_ordered retry renew lease).
Proof.
  run_main pkgs w.
  all: intros Hin; try absurd_In.
  all: split_In Hin; injection Hin as <- <-.
  all: eexists; split; [reflexivity|].
  all: cbn [opt_LeaseDuration opt_RenewDeadline opt_RetryPeriod
            boundLeaderElectionFlags LeaseDuration RenewDeadline
            RetryPeriod].
  all: split; [reflexivity|]; split; [reflexivity|]; split; [reflexivity|].
  all: intros Hord -> -> ->; do 3 eexists; repeat split; apply Hord.
Qed.

Lemma leader_election_durations_witness :
  ∃ cfg o retry renew lease,
    In (E_NewManager cfg o)
       (events (main test_pkgs (test_world noFlags true (Some SIGTERM))))
    ∧ opt_RetryPeriod o = Some retry
    ∧ opt_RenewDeadline o = Some renew
    ∧ opt_LeaseDuration o = Some lease
    ∧ durations_ordered retry renew lease.
Proof.
  destruct (newManagerOptions
              (events (main test_pkgs
                            (test_world noFlags true (Some SIGTERM)))))
    as [o|] eqn:Ho; [|vm_compute in Ho; discriminate Ho].
  destruct (newManagerOptions_In _ _ Ho) as [cfg Hin].
  exists cfg, o.
  destruct (leader_election_durations _ _ _ _ Hin)
    as (args & Hargs & _ & _ & _ & Hdefault).
  injection Hargs as <-.
  destruct Hdefault as (retry & renew & lease & H1 & H2 & H3 & H4);
    [split; reflexivity | reflexivity | reflexivity | reflexivity |].
  exists retry, renew, lease.
  split; [exact Hin|]. repeat split; try assumption; apply H4.
Defined.

(** With no flag on the command line, [main] passes ":9441" as the
    health probe address, logs to standard error, watches the default
    namespace of the controllers package, and hands the flag package of
    cluster-api diagnostics options whose metrics address is ":8081";
    the metrics options of the manager are what that package makes of
    them. *)
Lemma main_without_flags pkgs w cfg o :
  w_Parse w = Parsed noFlags →
  In (E_NewManager cfg o) (events (main pkgs w)) →
  opt_HealthProbeBindAddress o = ":9441"
  ∧ In (E_LogToStderr true) (events (main pkgs w))
  ∧ dom (DefaultNamespaces (opt_Cache o))
    = {[ controllers_DefaultManagedNamespace pkgs ]}
  ∧ opt_LeaderElection o = true
  ∧ In (E_AddDiagnosticsOptions initial_diagnosticsOptions)
       (events (main pkgs w))
  ∧ opt_Metrics o
    = w_GetDiagnosticsOptions w
        (w_boundDiagnosticsOptions w initial_diagnosticsOptions).
Proof.
  run_main pkgs w.
  all: intros Hparse Hin; try absurd_In.
  all: split_In Hin; injection Hin as <- <-.
  all: injection Hparse as ->.
  all: cbn [opt_HealthProbeBindAddress opt_Cache DefaultNamespaces
            opt_LeaderElection opt_Metrics].
  all: split; [reflexivity|].
  all: split; [cbn [In]; tauto|].
  all: split; [apply dom_singleton_L|].
  all: split; [reflexivity|].
  all: split; [cbn [In]; tauto | reflexivity].
Qed.

(* ===================================================================== *)
(** ** How a run of [main] ends                                           *)
(* ===================================================================== *)

(** X1: whatever error [main] logs, the log line is the first and only
    error of the run, [os.Exit(1)] comes right after it and ends the run:
    [main] recovers from nothing. *)
Theorem logged_error_is_fatal pkgs w e msg :
  In (E_Error e msg) (events (main pkgs w)) →
  from_first is_Error (events (main pkgs w)) = [E_Error e msg; E_Exit 1]
  ∧ outcome (main pkgs w) = Exited 1.
Proof.
  run_main pkgs w.
  all: intros Hin; try absurd_In.
  all: split_In Hin; injection Hin as <- <-; split; reflexivity.
Qed.

Lemma logged_error_is_fatal_witness :
  In (E_Error errTimedOutWaitingForFeatureGates "unable to get feature gates")
     (events (main test_pkgs world_unresponsive))
  ∧ outcome (main test_pkgs world_unresponsive) = Exited 1.
Proof.
  assert (Hin : In (E_Error errTimedOutWaitingForFeatureGates
                            "unable to get feature gates")
                   (events (main test_pkgs world_unresponsive)))
    by find_In.
  split; [exact Hin|].
  exact (proj2 (logged_error_is_fatal _ _ _ _ Hin)).
Defined.

(** X2: when [ctrl.NewManager] returns an error, [main] logs it as
    "unable to create manager" and exits with status 1 at once: no signal
    handler is installed and the feature-gate probe is not run. *)
Theorem manager_construction_failure_is_fatal pkgs w cfg o e :
  In (E_NewManager cfg o) (events (main pkgs w)) →
  w_NewManager w cfg o = Some e →
  from_first is_NewManager (events (main pkgs w))
  = [E_NewManager cfg o; E_Error e "unable to create manager"; E_Exit 1]
  ∧ never is_SetupSignalHandler (events (main pkgs w))
  ∧ never is_probe_call (events (main pkgs w))
  ∧ outcome (main pkgs w) = Exited 1.
Proof.
  run_main pkgs w.
  all: intros Hin; try absurd_In.
  all: split_In Hin; injection Hin as <- <-.
  all: intros Herr;
    match goal with
    | H : w_NewManager _ _ _ = _ |- _ =>
        pose proof (eq_trans (eq_sym Herr) H) as Heq;
        try discriminate Heq; injection Heq as <-
    end.
  all: split; [reflexivity|].
  all: split; [apply neverb_never; reflexivity|].
  all: split; [apply neverb_never; reflexivity | reflexivity].
Qed.

Lemma manager_construction_failure_is_fatal_witness :
  ∃ cfg o,
    In (E_NewManager cfg o) (events (main test_pkgs world_manager_fails))
    ∧ outcome (main test_pkgs world_manager_fails) = Exited 1.
Proof.
  destruct (newManagerOptions (events (main test_pkgs world_manager_fails)))
    as [o|] eqn:Ho; [|vm_compute in Ho; discriminate Ho].
  destruct (newManagerOptions_In _ _ Ho) as [cfg Hin].
  exists cfg, o. split; [exact Hin|].
  destruct (manager_construction_failure_is_fatal
              test_pkgs world_manager_fails cfg o
              (External "no such host") Hin eq_refl)
    as (_ & _ & _ & Hout).
  exact Hout.
Defined.

(** X3: the process ends with status 0 only for one of three reasons:
    [pflag.Parse] itself exited with 0, a termination signal cancelled
    the signal context, or the accessor saw the gates change and exited
    the process. *)
Theorem status_zero_causes pkgs w :
  exit_status (outcome (main pkgs w)) = Some 0 →
  w_Parse w = ParseExit 0
  ∨ (∃ s, w_signal w = Some s
          ∧ In (E_Done ctxSignal s) (events (main pkgs w)))
  ∨ (w_gateChange w = true ∧ In E_GatesChanged (events (main pkgs w))).
Proof.
  run_main pkgs w.
  all: cbn [exit_status]; intros H; try discriminate H.
  all: first
    [ right; left; eexists; split; [reflexivity | cbn [In]; tauto]
    | right; right; split; [reflexivity | cbn [In]; tauto]
    | injection H as ->; left; reflexivity ].
Qed.

Lemma status_zero_causes_witness :
  exit_status
    (outcome (main test_pkgs (test_world noFlags true (Some SIGTERM))))
  = Some 0
  ∧ In (E_Done ctxSignal SIGTERM)
       (events (main test_pkgs (test_world noFlags true (Some SIGTERM)))).
Proof.
  assert (H0 : exit_status
                 (outcome (main test_pkgs
                                (test_world noFlags true (Some SIGTERM))))
               = Some 0) by (vm_compute; reflexivity).
  split; [exact H0|].
  destruct (status_zero_causes _ _ H0) as [Hp | [(s & Hs & Hin) | (Hg & _)]].
  - discriminate Hp.
  - injection Hs as <-. exact Hin.
  - discriminate Hg.
Defined.

(** X4: what [mgr.Start] returns decides how [main] ends: an error is
    logged as "problem running manager" and followed by exit status 1;
    nil lets [main] return, and nothing is logged or called after it. *)
Theorem manager_start_result_decides pkgs w r :
  In (E_StartReturned r) (events (main pkgs w)) →
  from_first is_StartReturned (events (main pkgs w))
  = E_StartReturned r
    :: match r with
       | Some e => [E_Error e "problem running manager"; E_Exit 1]
       | None => []
       end
  ∧ outcome (main pkgs w)
    = match r with
      | Some _ => Exited 1
      | None => Returned tt
      end.
Proof.
  run_main pkgs w.
  all: intros Hin; try absurd_In.
  all: split_In Hin; injection Hin as <-; split; reflexivity.
Qed.

Lemma manager_start_result_decides_witness :
  In (E_StartReturned (Some (External "leader election lost")))
     (events (main test_pkgs world_start_fails))
  ∧ outcome (main test_pkgs world_start_fails) = Exited 1.
Proof.
  assert (Hin : In (E_StartReturned (Some (External "leader election lost")))
                   (events (main test_pkgs world_start_fails)))
    by find_In.
  split; [exact Hin|].
  exact (proj2 (manager_start_result_decides _ _ _ Hin)).
Defined.

(** X5: when the timer case of the probe's [select] is taken, [main]
    logs the timeout error as "unable to get feature gates" and exits
    with status 1; the gates are never read and the manager is never
    used. *)
Theorem probe_timeout_is_fatal pkgs w :
  In (E_Received caseTimeAfter) (events (main pkgs w)) →
  from_first is_Received (events (main pkgs w))
  = [E_Received caseTimeAfter;
     E_Error errTimedOutWaitingForFeatureGates "unable to get feature gates";
     E_Exit 1]
  ∧ never is_CurrentFeatureGates (events (main pkgs w))
  ∧ never uses_manager (events (main pkgs w))
  ∧ outcome (main pkgs w) = Exited 1.
Proof.
  run_main pkgs w.
  all: intros Hin; try absurd_In.
  all: split; [reflexivity|].
  all: split; [apply neverb_never; reflexivity|].
  all: split; [apply neverb_never; reflexivity | reflexivity].
Qed.

Lemma probe_timeout_is_fatal_witness :
  In (E_Received caseTimeAfter) (events (main test_pkgs world_unresponsive))
  ∧ never uses_manager (events (main test_pkgs world_unresponsive)).
Proof.
  assert (Hin : In (E_Received caseTimeAfter)
                   (events (main test_pkgs world_unresponsive)))
    by find_In.
  split; [exact Hin|].
  destruct (probe_timeout_is_fatal _ _ Hin) as (_ & _ & Hnever & _).
  exact Hnever.
Defined.

(** X6: a failure to build the config client is handed to [main]
    wrapped as "failed to create config client: %w", and [main] logs it
    as "unable to get feature gates" and exits with status 1: no
    informer factory and no accessor is built, no background task is
    started and nothing is waited for. *)
Theorem config_client_failure_is_fatal pkgs w cfg e :
  In (E_NewForConfig cfg) (events (main pkgs w)) →
  w_NewForConfig w cfg = Some e →
  from_first is_probe_call (events (main pkgs w))
  = [E_NewForConfig cfg;
     E_Error (Errorf "failed to create config client: %w" e)
             "unable to get feature gates";
     E_Exit 1]
  ∧ never is_Go (events (main pkgs w))
  ∧ never is_blocking_wait (events (main pkgs w))
  ∧ outcome (main pkgs w) = Exited 1.
Proof.
  run_main pkgs w.
  all: intros Hin; try absurd_In.
  all: split_In Hin; injection Hin as <-.
  all: intros Herr;
    match goal with
    | H : w_NewForConfig _ _ = _ |- _ =>
        pose proof (eq_trans (eq_sym Herr) H) as Heq;
        try discriminate Heq; injection Heq as <-
    end.
  all: split; [reflexivity|].
  all: split; [apply neverb_never; reflexivity|].
  all: split; [apply neverb_never; reflexivity | reflexivity].
Qed.

Lemma config_client_failure_is_fatal_witness :
  In (E_NewForConfig "in-cluster") (events (main test_pkgs world_client_fails))
  ∧ outcome (main test_pkgs world_client_fails) = Exited 1.
Proof.
  assert (Hin : In (E_NewForConfig "in-cluster")
                   (events (main test_pkgs world_client_fails)))
    by find_In.
  split; [exact Hin|].
  destruct (config_client_failure_is_fatal
              test_pkgs world_client_fails "in-cluster"
              (External "invalid host") Hin eq_refl)
    as (_ & _ & _ & Hout).
  exact Hout.
Defined.

(** X7: when the machine API types cannot be added to the scheme,
    [initScheme] panics and [main] ends there, before any flag is
    defined; and every manager [main] builds has a scheme that holds the
    machine API group and nothing else. *)
Theorem scheme_registered_or_panic pkgs w :
  (w_AddToScheme w ≠ None →
   never is_after_scheme (events (main pkgs w))
   ∧ outcome (main pkgs w) = Panicked)
  ∧ (∀ cfg o, In (E_NewManager cfg o) (events (main pkgs w)) →
              w_AddToScheme w = None
              ∧ opt_Scheme o = ["machine.openshift.io/v1beta1"]).
Proof.
  run_main pkgs w.
  all: split; [intros Hfail; try congruence |
               intros cfg o Hin; try absurd_In].
  all: try (split; [apply neverb_never; reflexivity | reflexivity]).
  all: split_In Hin; injection Hin as <- <-; split; reflexivity.
Qed.

Lemma scheme_registered_or_panic_witness :
  outcome (main test_pkgs world_scheme_fails) = Panicked
  ∧ ∃ cfg o,
      In (E_NewManager cfg o)
         (events (main test_pkgs (test_world noFlags true None)))
      ∧ opt_Scheme o = ["machine.openshift.io/v1beta1"].
Proof.
  split.
  - apply (proj1 (scheme_registered_or_panic test_pkgs world_scheme_fails)).
    discriminate.
  - destruct (newManagerOptions
                (events (main test_pkgs (test_world noFlags true None))))
      as [o|] eqn:Ho; [|vm_compute in Ho; discriminate Ho].
    destruct (newManagerOptions_In _ _ Ho) as [cfg Hin].
    exists cfg, o. split; [exact Hin|].
    exact (proj2 (proj2 (scheme_registered_or_panic _ _) cfg o Hin)).
Defined.

(** X8: the manager gets as health probe address the value of
    [--health-addr], or ":9441" when the flag is not given, and klog is
    told to log to standard error with the value of [--logtostderr], or
    true when the flag is not given. *)
Theorem health_address_and_logtostderr pkgs w cfg o :
  In (E_NewManager cfg o) (events (main pkgs w)) →
  ∃ args,
    w_Parse w = Parsed args
    ∧ opt_HealthProbeBindAddress o
      = default ":9441" (stringFlags args !! "health-addr")
    ∧ filter (λ e, is_LogToStderr e = true) (events (main pkgs w))
      = [E_LogToStderr (default true (boolFlags args !! "logtostderr"))].
Proof.
  run_main pkgs w.
  all: intros Hin; try absurd_In.
  all: split_In Hin; injection Hin as <- <-.
  all: eexists; split; [reflexivity|].
  all: split; reflexivity.
Qed.

Lemma health_address_and_logtostderr_witness :
  ∃ cfg o,
    In (E_NewManager cfg o)
       (events (main test_pkgs
                     (test_world args_health_addr true (Some SIGTERM))))
    ∧ opt_HealthProbeBindAddress o = ":9999".
Proof.
  destruct (newManagerOptions
              (events (main test_pkgs
                            (test_world args_health_addr true
                                        (Some SIGTERM)))))
    as [o|] eqn:Ho; [|vm_compute in Ho; discriminate Ho].
  destruct (newManagerOptions_In _ _ Ho) as [cfg Hin].
  exists cfg, o. split; [exact Hin|].
  destruct (health_address_and_logtostderr _ _ _ _ Hin)
    as (args & Hargs & Hhealth & _).
  injection Hargs as <-.
  exact Hhealth.
Defined.

(* ===================================================================== *)
(** ** More on the feature-gate probe                                     *)
(* ===================================================================== *)

(** X9: once the config client exists, [getFeatureGates] starts exactly
    two background tasks, the run of the accessor it has built and the
    start of the informer factory that accessor reads from, in this
    order; each of the two is started before the [select], and none is
    started once the [select] has begun; both are given the background
    context, which the termination signal does not cancel. *)
Theorem probe_background_tasks pkgs w mgr :
  w_NewForConfig w (GetConfig mgr) = None →
  (∃ acc f,
     filter (λ e, is_Go e = true) (events (getFeatureGates pkgs w mgr))
     = [E_Go (Task_AccessorRun acc ctxBackground);
        E_Go (Task_InformersStart f ctxBackground)]
     ∧ In (E_NewFeatureGateAccess acc) (events (getFeatureGates pkgs w mgr))
     ∧ In (E_Select acc (1 * time.Minute))
          (events (getFeatureGates pkgs w mgr))
     ∧ acc_ClusterVersions acc = ClusterVersions f
     ∧ acc_FeatureGates acc = FeatureGates f)
  ∧ precedes is_Go_AccessorRun is_Select (events (getFeatureGates pkgs w mgr))
  ∧ precedes is_Go_InformersStart is_Select
      (events (getFeatureGates pkgs w mgr))
  ∧ precedes is_Go_AccessorRun is_Go_InformersStart
      (events (getFeatureGates pkgs w mgr))
  ∧ never is_Go
      (from_first is_Select (events (getFeatureGates pkgs w mgr)))
  ∧ ∀ t, In (E_Go t) (events (getFeatureGates pkgs w mgr)) →
         task_context t = ctxBackground.
Proof.
  run_probe pkgs w mgr.
  all: intros Hcfg; try discriminate Hcfg.
  all: split;
    [ eexists _, {| factory_Client := _; factory_DefaultResync := _ |};
      split; [reflexivity|]; split; [cbn [In]; tauto|];
      split; [cbn [In]; tauto|]; split; reflexivity |].
  all: split; [apply guardedb_precedes; reflexivity|].
  all: split; [apply guardedb_precedes; reflexivity|].
  all: split; [apply guardedb_precedes; reflexivity|].
  all: split; [apply neverb_never; reflexivity|].
  all: intros t Hin; split_In Hin; injection Hin as <-; reflexivity.
Qed.

Lemma probe_background_tasks_witness :
  precedes is_Go_InformersStart is_Select
    (events (getFeatureGates test_pkgs (test_world noFlags true None)
                             test_mgr))
  ∧ never is_Go
      (from_first is_Select
         (events (getFeatureGates test_pkgs (test_world noFlags true None)
                                  test_mgr))).
Proof.
  destruct (probe_background_tasks
              test_pkgs (test_world noFlags true None) test_mgr eq_refl)
    as (_ & _ & Hprec & _ & Hnever & _).
  split; [exact Hprec | exact Hnever].
Defined.

(** X10: [getFeatureGates] never exits the process, never logs an error
    and never waits for ever: the only wait it has is bounded by the
    timer, so it always comes back to its caller or panics. *)
Theorem probe_never_blocks pkgs w mgr :
  never is_Exit (events (getFeatureGates pkgs w mgr))
  ∧ never is_Error (events (getFeatureGates pkgs w mgr))
  ∧ outcome (getFeatureGates pkgs w mgr) ≠ Blocked
  ∧ ∀ code, outcome (getFeatureGates pkgs w mgr) ≠ Exited code.
Proof.
  run_probe pkgs w mgr.
  all: split; [apply neverb_never; reflexivity|].
  all: split; [apply neverb_never; reflexivity|].
  all: split; [discriminate | intros code; discriminate].
Qed.

(* ===================================================================== *)
(** ** The order of the bootstrap                                         *)
(* ===================================================================== *)

(** X11: every flag is defined or bound before [pflag.Parse] runs, the
    leader-election and diagnostics bindings among them, and nothing is
    bound afterwards; and the command line is parsed before the manager
    is built. *)
Theorem flags_bound_before_parse pkgs w :
  never is_flag_binding (from_first is_Parse (events (main pkgs w)))
  ∧ precedes is_BindLeaderElectionFlags is_Parse (events (main pkgs w))
  ∧ precedes is_AddDiagnosticsOptions is_Parse (events (main pkgs w))
  ∧ precedes is_Parse is_NewManager (events (main pkgs w)).
Proof.
  run_main pkgs w.
  all: split; [apply neverb_never; reflexivity|].
  all: split; [apply guardedb_precedes; reflexivity|].
  all: split; apply guardedb_precedes; reflexivity.
Qed.

(** X12: the gate is looked up only after the accessor has signalled its
    first observation, and the manager is asked to register a probe or to
    run only after [Enabled] has answered true. *)
Theorem manager_used_only_when_enabled pkgs w :
  precedes is_observed is_Enabled (events (main pkgs w))
  ∧ precedes is_Enabled_true uses_manager (events (main pkgs w)).
Proof.
  run_main pkgs w.
  all: split; apply guardedb_precedes; reflexivity.
Qed.
